(** * scrape.py: the rozee.pk listing scraper

    A shallow embedding of [src/scrape.py].  Python strings are modelled as
    [string], integers as [Z], exceptions as an error result, and the
    process state (standard output, the HTTP requests issued so far, the
    number of generator objects created) as an explicit [world] threaded
    through a small state-and-error monad.  Python iterators are modelled
    as resumable objects: a generator is a function that, given the world,
    either yields a value together with the generator's next state, stops,
    or raises. *)

From Stdlib Require Import String Ascii List ZArith NArith Lia Bool.
From Stdlib Require Import DecimalString DecimalPos DecimalZ HexString Sorted RelationClasses.
Import ListNotations.
Open Scope string_scope.
Set Warnings "-register-all".

(** ** Exceptions and results *)

Inductive exn : Type :=
| AssertionError (status_code : Z) (text : string)
| TypeError (msg : string)
| KeyError (key : string)
| IndexError (msg : string)
| NameError (name : string)
| AttributeError (msg : string)
| ConnectionError (msg : string).

Inductive outcome (A : Type) : Type :=
| Ok (a : A)
| Raise (e : exn).
Arguments Ok {A} a.
Arguments Raise {A} e.

Definition is_ok {A} (o : outcome A) : bool :=
  match o with Ok _ => true | Raise _ => false end.

(** ** Python strings *)

Module PyStr.

(** [s[n:]] for a non-negative [n]: the slice start is clipped to the
    length of [s], so the slice never raises. *)
Fixpoint slice_from (n : nat) (s : string) : string :=
  match n, s with
  | O, _ => s
  | S _, EmptyString => EmptyString
  | S n', String _ s' => slice_from n' s'
  end.

(** [s.split(sep)] for a one-character separator, the only kind the
    source passes.  The result always has at least one field. *)
Fixpoint split (sep : ascii) (s : string) : list string :=
  match s with
  | EmptyString => [EmptyString]
  | String c s' =>
      if Ascii.eqb c sep then EmptyString :: split sep s'
      else match split sep s' with
           | [] => [String c EmptyString]
           | field :: fields => String c field :: fields
           end
  end.

(** [l[i]] for a non-negative index. *)
Definition getitem {A} (l : list A) (i : nat) : outcome A :=
  match nth_error l i with
  | Some x => Ok x
  | None => Raise (IndexError "list index out of range")
  end.

(** [str(n)] for an integer. *)
Definition of_int (n : Z) : string :=
  NilZero.string_of_int (Z.to_int n).

(** [template.format(a1, ..., an)] for templates whose only replacement fields
    are the automatically numbered [{}]: every other character is copied.
    Running out of arguments raises, surplus arguments are ignored. *)
Fixpoint format (template : string) (args : list string) : outcome string :=
  match template with
  | EmptyString => Ok EmptyString
  | String "{" (String "}" rest) =>
      match args with
      | [] => Raise (IndexError "Replacement index out of range")
      | a :: args' =>
          match format rest args' with
          | Ok s => Ok (a ++ s)
          | Raise e => Raise e
          end
      end
  | String c rest =>
      match format rest args with
      | Ok s => Ok (String c s)
      | Raise e => Raise e
      end
  end.

(** Does the character [c] occur in [s]? *)
Fixpoint mem (c : ascii) (s : string) : bool :=
  match s with
  | EmptyString => false
  | String d s' => Ascii.eqb d c || mem c s'
  end.

End PyStr.

(** ** [range] *)

(** The values of [range(start, stop, step)] for a positive step, computed
    as CPython does: the length is fixed when the range is created and the
    i-th value is [start + i * step]. *)
Definition range_len (start stop step : Z) : nat :=
  if (start <? stop)%Z then Z.to_nat ((stop - start - 1) / step + 1) else O.

Definition py_range (start stop step : Z) : list Z :=
  map (fun i => (start + Z.of_nat i * step)%Z) (seq 0 (range_len start stop step)).

(** ** The process state and Python values *)

(** What the run can change: the lines written to standard output, the
    URLs of the HTTP GET requests issued (oldest first), and how many
    generator objects have been created. *)
Record world : Type := mkWorld {
  stdout : list string;
  requests : list string;
  generators : nat
}.

Definition initial_world : world := mkWorld [] [] 0.

(** The values the program handles.  A generator object carries its
    qualified name and address (both appear in its string form) and its
    suspended computation.  Resuming a generator yields a value and the
    generator's next state, or stops, or raises. *)
Inductive value : Type :=
| VInt (z : Z)
| VStr (s : string)
| VGenerator (qualname : string) (addr : N) (g : gen)
with gen : Type :=
| Gen (resume : world -> step)
with step : Type :=
| Yield (v : value) (g' : gen) (w : world)
| Stop (w : world)
| Throw (e : exn) (w : world).

Definition resume (g : gen) : world -> step :=
  match g with Gen f => f end.

(** A generator that has nothing left to yield. *)
Definition exhausted : gen := Gen Stop.

(** ** State-and-error monad *)

Definition M (A : Type) : Type := world -> outcome A * world.

Definition ret {A} (a : A) : M A := fun w => (Ok a, w).

Definition bind {A B} (m : M A) (k : A -> M B) : M B :=
  fun w => match m w with
           | (Ok a, w') => k a w'
           | (Raise e, w') => (Raise e, w')
           end.

Definition lift {A} (o : outcome A) : M A := fun w => (o, w).

Notation "x <- m ;; k" := (bind m (fun x => k))
  (at level 61, m at next level, right associativity).

(** [str(v)], which [print] applies to its argument.  A generator object
    has no string form of its own, so [str] falls back to the default
    [repr]. *)
Definition py_str (v : value) : string :=
  match v with
  | VInt z => PyStr.of_int z
  | VStr s => s
  | VGenerator qualname addr _ =>
      "<generator object " ++ qualname ++ " at " ++ HexString.of_N addr ++ ">"
  end.

(** [print(v)]: one line on standard output. *)
Definition print (v : value) : M unit :=
  fun w => (Ok tt, mkWorld (stdout w ++ [py_str v]) (requests w) (generators w)).

Definition as_str (v : value) : outcome string :=
  match v with
  | VStr s => Ok s
  | _ => Raise (TypeError "expected str")
  end.

(** ** Iteration *)

(** The iterator of a list, with each element turned into a value. *)
Fixpoint iter_list {A} (inj : A -> value) (l : list A) : gen :=
  Gen (fun w =>
    match l with
    | [] => Stop w
    | x :: l' => Yield (inj x) (iter_list inj l') w
    end).

(** [iter(v)].  A generator object is its own iterator; a string iterates
    over its characters; an integer is not iterable. *)
Definition py_iter (v : value) : outcome gen :=
  match v with
  | VInt _ => Raise (TypeError "'int' object is not iterable")
  | VStr s => Ok (iter_list (fun c => VStr (String c EmptyString)) (list_ascii_of_string s))
  | VGenerator _ _ g => Ok g
  end.

(** A generator expression [(f(x) for x in l)] over a list or a range:
    each resumption takes the next element and evaluates the element
    expression on it. *)
Fixpoint genexpr_list {A} (f : A -> M value) (l : list A) : gen :=
  Gen (fun w =>
    match l with
    | [] => Stop w
    | x :: l' =>
        match f x w with
        | (Ok y, w1) => Yield y (genexpr_list f l') w1
        | (Raise e, w1) => Throw e w1
        end
    end).

(** A generator expression [(f(x) for x in src)] over another iterator:
    each resumption pulls one element from [src] and evaluates the element
    expression on it.  Nothing is pulled from [src] before the first
    resumption. *)
Fixpoint genexpr (f : value -> M value) (src : gen) {struct src} : gen :=
  match src with
  | Gen next =>
      Gen (fun w =>
        match next w with
        | Yield x src' w1 =>
            match f x w1 with
            | (Ok y, w2) => Yield y (genexpr f src') w2
            | (Raise e, w2) => Throw e w2
            end
        | Stop w1 => Stop w1
        | Throw e w1 => Throw e w1
        end)
  end.

(** [yield from g] inside a generator whose remaining body is [k]. *)
Fixpoint yield_from (g k : gen) {struct g} : gen :=
  match g with
  | Gen next =>
      Gen (fun w =>
        match next w with
        | Yield x g' w1 => Yield x (yield_from g' k) w1
        | Stop w1 => resume k w1
        | Throw e w1 => Throw e w1
        end)
  end.

(** [itertools.chain(iterables...)]: the elements of the first argument,
    then those of the second, and so on.  Each argument is turned into an
    iterator when the chain reaches it; the elements themselves are handed
    on untouched. *)
Fixpoint chain (iterables : list value) : gen :=
  match iterables with
  | [] => exhausted
  | it :: rest =>
      Gen (fun w =>
        match py_iter it with
        | Ok g => resume (yield_from g (chain rest)) w
        | Raise e => Throw e w
        end)
  end.

(** [for x in g: body(x)]. *)
Fixpoint for_each (g : gen) (body : value -> M unit) (w : world) {struct g}
  : outcome unit * world :=
  match g with
  | Gen next =>
      match next w with
      | Yield x g' w1 =>
          match body x w1 with
          | (Ok _, w2) => for_each g' body w2
          | (Raise e, w2) => (Raise e, w2)
          end
      | Stop w1 => (Ok tt, w1)
      | Throw e w1 => (Raise e, w1)
      end
  end.

(** [list(g)]: the values [g] yields until it stops. *)
Fixpoint drain (g : gen) (w : world) {struct g} : outcome (list value) * world :=
  match g with
  | Gen next =>
      match next w with
      | Yield x g' w1 =>
          match drain g' w1 with
          | (Ok xs, w2) => (Ok (x :: xs), w2)
          | (Raise e, w2) => (Raise e, w2)
          end
      | Stop w1 => (Ok [], w1)
      | Throw e w1 => (Raise e, w1)
      end
  end.

(** ** What the program takes from outside *)

(** An HTTP response, as far as the source reads it. *)
Record response : Type := mkResponse {
  status_code : Z;
  text : string
}.

(** A parsed element, as far as the source reads it: [p.a] is the first
    nested anchor or [None], and [tag['href']] looks the attribute up. *)
Record anchor : Type := mkAnchor { href : option string }.
Record heading : Type := mkHeading { a : option anchor }.

(** The outside of the program: what [requests.get] answers for a URL
    (a response, or a transport failure), which headings
    [BeautifulSoup(text, 'html.parser').find_all("h3", class_="s-18")]
    finds in a body, and the address the runtime gives to the n-th
    generator object it creates. *)
Record env : Type := mkEnv {
  http_get : string -> outcome response;
  find_all_h3_s18 : string -> list heading;
  address : nat -> N
}.

(** ** The [Posting] class *)

Module Posting.

(** The names bound at module level when a method of the class runs.  The
    builtins contain none of the names the methods look up. *)
Definition module_globals : list string :=
  ["requests"; "BeautifulSoup"; "it"; "Posting"; "collect_postings"].

(** The objects a method can meet: a value passed in, an instance of the
    class with the attributes set on it, or a module-level object. *)
Inductive obj : Type :=
| Arg (v : value)
| Instance (attrs : list (string * obj))
| Global (name : string).

Definition frame : Type := list (string * obj).

(** Binding a call's positional arguments to a function's parameters. *)
Definition bind_args (fname : string) (params : list string) (args : list obj)
  : outcome frame :=
  if Nat.eqb (length args) (length params) then Ok (combine params args)
  else Raise (TypeError (fname ++ "() takes "
                         ++ PyStr.of_int (Z.of_nat (length params))
                         ++ " positional arguments but "
                         ++ PyStr.of_int (Z.of_nat (length args))
                         ++ " were given")).

(** Reading a name inside a function: a parameter, else a module global,
    else [NameError]. *)
Definition load_name (locals : frame) (x : string) : outcome obj :=
  match find (fun kv => String.eqb (fst kv) x) locals with
  | Some kv => Ok (snd kv)
  | None =>
      if existsb (String.eqb x) module_globals then Ok (Global x)
      else Raise (NameError x)
  end.

(** [target.attr = v].  Attributes of module-level objects are not
    tracked. *)
Definition setattr (target : obj) (attr : string) (v : obj) : outcome obj :=
  match target with
  | Instance attrs => Ok (Instance ((attr, v) :: attrs))
  | Global g => Ok (Global g)
  | Arg _ => Raise (AttributeError attr)
  end.

(** [target.attr]. *)
Definition getattr (target : obj) (attr : string) : outcome obj :=
  match target with
  | Instance attrs =>
      match find (fun kv => String.eqb (fst kv) attr) attrs with
      | Some kv => Ok (snd kv)
      | None => Raise (AttributeError attr)
      end
  | _ => Raise (AttributeError attr)
  end.

Definition str_obj (o : obj) : string :=
  match o with
  | Arg v => py_str v
  | Instance _ => "<__main__.Posting object>"
  | Global g => "<" ++ g ++ ">"
  end.

(** One statement [self.attr = name] of [__init__]: the right-hand side
    is evaluated first, then the name [self], then the attribute is set. *)
Definition assign_self_attr (locals : frame) (attr name : string) : outcome unit :=
  match load_name locals name with
  | Raise e => Raise e
  | Ok v =>
      match load_name locals "self" with
      | Raise e => Raise e
      | Ok target =>
          match setattr target attr v with
          | Ok _ => Ok tt
          | Raise e => Raise e
          end
      end
  end.

(** [def __init__(title, url, description)]. *)
Definition init_params : list string := ["title"; "url"; "description"].

Definition init (args : list obj) : outcome unit :=
  match bind_args "__init__" init_params args with
  | Raise e => Raise e
  | Ok locals =>
      match assign_self_attr locals "title" "title" with
      | Raise e => Raise e
      | Ok _ =>
          match assign_self_attr locals "url" "url" with
          | Raise e => Raise e
          | Ok _ => assign_self_attr locals "description" "description"
          end
      end
  end.

(** One argument [self.attr] of the call to [format] in [format_row]. *)
Definition load_self_attr (locals : frame) (attr : string) : outcome string :=
  match load_name locals "self" with
  | Raise e => Raise e
  | Ok target =>
      match getattr target attr with
      | Ok o => Ok (str_obj o)
      | Raise e => Raise e
      end
  end.

(** [def format_row()]: no parameters; the arguments of [format] are
    evaluated left to right. *)
Definition format_row_params : list string := [].

Definition format_row (args : list obj) : outcome string :=
  match bind_args "format_row" format_row_params args with
  | Raise e => Raise e
  | Ok locals =>
      match load_self_attr locals "title" with
      | Raise e => Raise e
      | Ok t =>
          match load_self_attr locals "description" with
          | Raise e => Raise e
          | Ok d =>
              match load_self_attr locals "url" with
              | Raise e => Raise e
              | Ok u => PyStr.format "{}, {}, {}" [t; d; u]
              end
          end
      end
  end.

(** [Posting(args...)]: a fresh instance is created and passed to
    [__init__] in front of the call's arguments; the call returns the
    instance only if [__init__] returns. *)
Definition new (args : list obj) : outcome obj :=
  let self := Instance [] in
  match init (self :: args) with
  | Ok _ => Ok self
  | Raise e => Raise e
  end.

(** [p.format_row(args...)] on an instance [p]: the instance is passed in
    front of the call's arguments. *)
Definition call_format_row_on (p : obj) (args : list obj) : outcome string :=
  format_row (p :: args).

End Posting.

(** ** [collect_postings] *)

Section Program.
Variable E : env.

(** [requests.get(url)]: the request is issued, then answered. *)
Definition requests_get (url : string) : M response :=
  fun w => (http_get E url, mkWorld (stdout w) (requests w ++ [url]) (generators w)).

(** Creating a generator object, for a call of a generator function or
    for a generator expression: nothing of its body runs. *)
Definition new_generator (qualname : string) (g : gen) : M value :=
  fun w => (Ok (VGenerator qualname (address E (generators w)) g),
            mkWorld (stdout w) (requests w) (S (generators w))).

Definition total_jobs : Z := 765.
Definition pg_interval : Z := 20.

(** [href[2:].split('?')[0]]. *)
Definition unwrap_url (href : string) : outcome string :=
  PyStr.getitem (PyStr.split "?" (PyStr.slice_from 2 href)) 0.

(** [p.a['href']]. *)
Definition posting_href (p : heading) : outcome string :=
  match a p with
  | None => Raise (TypeError "'NoneType' object is not subscriptable")
  | Some anchor =>
      match href anchor with
      | Some h => Ok h
      | None => Raise (KeyError "href")
      end
  end.

(** The element expression [unwrap_url(p.a['href'])]. *)
Definition posting_url (p : heading) : M value :=
  h <- lift (posting_href p) ;;
  u <- lift (unwrap_url h) ;;
  ret (VStr u).

Definition genexpr_qualname : string := "collect_postings.<locals>.<genexpr>".
Definition extract_posting_urls_qualname : string :=
  "collect_postings.<locals>.extract_posting_urls".

(** The body of the generator function [extract_posting_urls]: it runs
    when the generator object is first resumed. *)
Definition extract_posting_urls_body (url : value) : gen :=
  Gen (fun w =>
    match (u <- lift (as_str url) ;;
           r <- requests_get u ;;
           if (status_code r =? 200)%Z then
             let postings := find_all_h3_s18 E (text r) in
             new_generator genexpr_qualname (genexpr_list posting_url postings)
           else lift (Raise (AssertionError (status_code r) (text r)))) w with
    | (Ok urls, w1) =>
        match py_iter urls with
        | Ok g => resume (yield_from g exhausted) w1
        | Raise e => Throw e w1
        end
    | (Raise e, w1) => Throw e w1
    end).

(** Calling [extract_posting_urls(url)]: the function contains a [yield],
    so the call only creates the generator object. *)
Definition extract_posting_urls (url : value) : M value :=
  new_generator extract_posting_urls_qualname (extract_posting_urls_body url).

Definition base : string :=
  "https://www.rozee.pk/category/software-web-development-jobs/?fpn={}".

(** The element expression [base.format(fpn)]. *)
Definition page_url (fpn : Z) : M value :=
  u <- lift (PyStr.format base [py_str (VInt fpn)]) ;;
  ret (VStr u).

(** The generator expression [(base.format(fpn) for fpn in range(0, 765, 20))]. *)
Definition listing_urls : gen :=
  genexpr_list page_url (py_range 0 765 20).

Definition collect_postings : M unit :=
  urls <- new_generator genexpr_qualname listing_urls ;;
  urls_it <- lift (py_iter urls) ;;
  pages <- new_generator genexpr_qualname (genexpr extract_posting_urls urls_it) ;;
  let jobs := chain [pages] in
  for_each jobs print.

(** ** The program: [collect_postings()] under [__main__] *)

Record run_result : Type := mkRun {
  printed : list string;
  fetched : list string;
  exit_status : Z;
  uncaught : option exn
}.

Definition main : run_result :=
  match collect_postings initial_world with
  | (Ok _, w) => mkRun (stdout w) (requests w) 0 None
  | (Raise e, w) => mkRun (stdout w) (requests w) 1 (Some e)
  end.

End Program.

(** ** Vocabulary of the statements *)

(** The base template up to its replacement field. *)
Definition listing_prefix : string :=
  "https://www.rozee.pk/category/software-web-development-jobs/?fpn=".

Definition listing_url (offset : Z) : string :=
  listing_prefix ++ PyStr.of_int offset.

(** The offsets 0, 20, ..., 760 written out. *)
Definition offsets : list Z :=
  map (fun k => (20 * Z.of_nat k)%Z) (seq 0 39).

(** The string form of a generator object of [extract_posting_urls]. *)
Definition generator_line (addr : N) : string :=
  "<generator object collect_postings.<locals>.extract_posting_urls at "
  ++ HexString.of_N addr ++ ">".

(** The generator objects the run creates for the listing pages: the two
    generator expressions are created first, so the page at position [i]
    gets the object number [2 + i]; each holds the unstarted body of
    [extract_posting_urls] for its page URL. *)
Definition page_generators (E : env) : list value :=
  map (fun i => VGenerator extract_posting_urls_qualname
                  (address E (2 + i))
                  (extract_posting_urls_body E
                     (VStr (listing_url (20 * Z.of_nat i)))))
      (seq 0 39).

(** The lines that iterating one page's generator to its end would print:
    the page's list of normalized posting URLs when nothing fails. *)
Definition page_lines (E : env) (url : string) : list string :=
  stdout (snd (for_each (extract_posting_urls_body E (VStr url)) print initial_world)).

(** The posting [p] has an anchor with a reference that normalizes to [u]. *)
Definition normalizes_to (p : heading) (u : string) : Prop :=
  exists h, posting_href p = Ok h /\ unwrap_url h = Ok u.

(** A decision procedure for lists of strings without repetition. *)
Fixpoint distinctb (l : list string) : bool :=
  match l with
  | [] => true
  | x :: l' => negb (existsb (String.eqb x) l') && distinctb l'
  end.

(** Adding lines and requests to a world. *)
Definition extend (w : world) (lines reqs : list string) (gens : nat) : world :=
  mkWorld (stdout w ++ lines) (requests w ++ reqs) (gens + generators w).

(** *** Example servers *)

Definition two_postings : list heading :=
  [mkHeading (Some (mkAnchor (Some "./job/abc?ref=1")));
   mkHeading (Some (mkAnchor (Some "./job/def")))].

Definition body_two_postings : string :=
  "<h3 class='s-18'><a href='./job/abc?ref=1'>abc</a></h3><h3 class='s-18'><a href='./job/def'>def</a></h3>".
Definition body_empty_listing : string := "<html><body></body></html>".
Definition body_no_anchor : string := "<h3 class='s-18'>closed</h3>".
Definition body_no_href : string := "<h3 class='s-18'><a name='x'>x</a></h3>".

(** The parser on the example bodies: what [find_all] finds in each. *)
Definition example_find_all (body : string) : list heading :=
  if String.eqb body body_two_postings then two_postings
  else if String.eqb body body_no_anchor then [mkHeading None]
  else if String.eqb body body_no_href then [mkHeading (Some (mkAnchor None))]
  else [].

Definition example_address (n : nat) : N := (140737488355328 + 208 * N.of_nat n)%N.

(** Offset 0 answers two postings, every other page an empty listing. *)
Definition env_two : env :=
  mkEnv (fun url => if String.eqb url (listing_url 0)
                    then Ok (mkResponse 200 body_two_postings)
                    else Ok (mkResponse 200 body_empty_listing))
        example_find_all example_address.

(** Every page answers 404. *)
Definition env_404 : env :=
  mkEnv (fun _ => Ok (mkResponse 404 "Not Found")) example_find_all example_address.

(** Every page has a matched heading without an anchor. *)
Definition env_no_anchor : env :=
  mkEnv (fun _ => Ok (mkResponse 200 body_no_anchor)) example_find_all example_address.

(** Every page has a matched heading whose anchor has no [href]. *)
Definition env_no_href : env :=
  mkEnv (fun _ => Ok (mkResponse 200 body_no_href)) example_find_all example_address.

(** Every request fails in transport. *)
Definition env_down : env :=
  mkEnv (fun _ => Raise (ConnectionError "Connection refused"))
        example_find_all example_address.

Definition body_closed_between : string :=
  "<h3 class='s-18'><a href='./job/abc?ref=1'>abc</a></h3><h3 class='s-18'>closed</h3><h3 class='s-18'><a href='./job/def'>def</a></h3>".

Definition closed_between : list heading :=
  [mkHeading (Some (mkAnchor (Some "./job/abc?ref=1")));
   mkHeading None;
   mkHeading (Some (mkAnchor (Some "./job/def")))].

(** Every page has a heading without an anchor between two well-formed
    ones. *)
Definition env_closed_between : env :=
  mkEnv (fun _ => Ok (mkResponse 200 body_closed_between))
        (fun body => if String.eqb body body_closed_between
                     then closed_between else [])
        example_address.

(** * Properties *)

(** ** Strings: slicing and splitting *)

Module PyStrFacts.
Import PyStr.

Lemma split_nonempty (sep : ascii) (s : string) : split sep s <> [].
Proof.
  induction s as [|c s IH]; simpl; [discriminate|].
  destruct (Ascii.eqb c sep); [discriminate|].
  destruct (split sep s); discriminate.
Qed.

(** The first field of a split holds no separator, and the string is that
    field alone or that field, a separator and a rest. *)
Lemma split_head (sep : ascii) (s : string) :
  exists field fields,
    split sep s = field :: fields /\
    mem sep field = false /\
    (s = field \/ exists rest, s = field ++ String sep rest).
Proof.
  induction s as [|c s (field & fields & Hsplit & Hmem & Hshape)]; simpl.
  - exists EmptyString, []. repeat split. now left.
  - destruct (Ascii.eqb c sep) eqn:Hc.
    + apply Ascii.eqb_eq in Hc; subst c.
      exists EmptyString, (split sep s). repeat split.
      right. now exists s.
    + rewrite Hsplit. exists (String c field), fields. repeat split.
      * simpl. now rewrite Hc, Hmem.
      * destruct Hshape as [->|(rest & ->)]; [now left|right; now exists rest].
Qed.

Lemma slice_from_short (n : nat) (s : string) :
  String.length s <= n -> slice_from n s = EmptyString.
Proof.
  revert s; induction n as [|n IH]; intros [|c s] Hlen; simpl in *;
    try reflexivity; try lia.
  apply IH; lia.
Qed.

Lemma append_empty_r (s : string) : s ++ EmptyString = s.
Proof. induction s as [|c s IH]; simpl; [reflexivity|now rewrite IH]. Qed.

Lemma format_one_field (pre arg : string) :
  mem "{" pre = false ->
  format (pre ++ "{}") [arg] = Ok (pre ++ arg).
Proof.
  induction pre as [|c pre IH]; simpl; intros Hmem.
  - now rewrite append_empty_r.
  - apply orb_false_iff in Hmem as [Hc Hpre].
    specialize (IH Hpre).
    destruct c as [[] [] [] [] [] [] [] []];
      try discriminate Hc; cbn [format]; now rewrite IH.
Qed.

End PyStrFacts.

(** ** [unwrap_url] *)

Lemma unwrap_url_shape (href : string) :
  exists u,
    unwrap_url href = Ok u /\
    PyStr.mem "?" u = false /\
    (PyStr.slice_from 2 href = u \/
     exists rest, PyStr.slice_from 2 href = u ++ String "?" rest).
Proof.
  unfold unwrap_url, PyStr.getitem.
  destruct (PyStrFacts.split_head "?" (PyStr.slice_from 2 href))
    as (field & fields & -> & Hmem & Hshape).
  exists field. simpl. auto.
Qed.

(** C6.  Normalization strips the first two characters and truncates at the
    first question mark: './foo/bar?x=1&y=2' and './foo/bar' both become
    'foo/bar', and in general the result holds no question mark and is the
    reference without its first two characters, cut before a question mark
    if there is one. *)
Theorem unwrap_url_normalizes :
  unwrap_url "./foo/bar?x=1&y=2" = Ok "foo/bar" /\
  unwrap_url "./foo/bar" = Ok "foo/bar" /\
  forall href, exists u,
    unwrap_url href = Ok u /\
    PyStr.mem "?" u = false /\
    (PyStr.slice_from 2 href = u \/
     exists rest, PyStr.slice_from 2 href = u ++ String "?" rest).
Proof.
  split; [reflexivity|]. split; [reflexivity|].
  exact unwrap_url_shape.
Qed.

(** C9.  [unwrap_url] returns a string for every input string, and for an
    input of at most two characters it returns the empty string. *)
Theorem unwrap_url_total (href : string) :
  (exists u, unwrap_url href = Ok u) /\
  (String.length href <= 2 -> unwrap_url href = Ok EmptyString).
Proof.
  split.
  - destruct (unwrap_url_shape href) as (u & Hu & _). now exists u.
  - intros Hlen. unfold unwrap_url.
    now rewrite (PyStrFacts.slice_from_short 2 href Hlen).
Qed.

Lemma unwrap_url_total_witness :
  String.length "./" <= 2 /\ unwrap_url "./" = Ok EmptyString.
Proof.
  split; [simpl; lia|].
  apply (proj2 (unwrap_url_total "./")). simpl; lia.
Defined.

(** ** The listing pages *)

Lemma py_range_offsets : py_range 0 765 20 = offsets.
Proof. reflexivity. Qed.

Lemma offsets_spec (n : Z) :
  In n offsets <-> (0 <= n < 765 /\ n mod 20 = 0)%Z.
Proof.
  unfold offsets. rewrite in_map_iff. split.
  - intros (k & <- & Hk). apply in_seq in Hk. split; [lia|].
    rewrite Z.mul_comm. apply Z.mod_mul. lia.
  - intros [Hrange Hmod].
    apply Z.mod_divide in Hmod; [|lia]. destruct Hmod as [c Hc].
    exists (Z.to_nat c). split; [lia|]. apply in_seq. lia.
Qed.

Lemma strictly_ascending_NoDup (l : list Z) :
  StronglySorted Z.lt l -> NoDup l.
Proof.
  induction 1 as [|x l _ IH Hall]; constructor; [|exact IH].
  intros Hin. rewrite Forall_forall in Hall. specialize (Hall x Hin). lia.
Qed.

Lemma offsets_ascending : StronglySorted Z.lt offsets.
Proof.
  apply Sorted_StronglySorted; [exact Z.lt_trans|].
  unfold offsets; simpl. repeat (constructor; try lia).
Qed.

Lemma page_url_eq (n : Z) (w : world) :
  page_url n w = (Ok (VStr (listing_url n)), w).
Proof.
  unfold page_url, bind, lift, ret, base, listing_url.
  change "https://www.rozee.pk/category/software-web-development-jobs/?fpn={}"
    with (listing_prefix ++ "{}").
  now rewrite PyStrFacts.format_one_field.
Qed.

Lemma drain_genexpr_page_url (l : list Z) (w : world) :
  drain (genexpr_list page_url l) w = (Ok (map (fun n => VStr (listing_url n)) l), w).
Proof.
  induction l as [|n l IH]; cbn [genexpr_list drain map]; [reflexivity|].
  now rewrite page_url_eq, IH.
Qed.

Lemma distinctb_NoDup (l : list string) : distinctb l = true -> NoDup l.
Proof.
  induction l as [|x l IH]; simpl; intros H; constructor;
    apply andb_true_iff in H as [Hx Hl]; [|now apply IH].
  intros Hin. apply negb_true_iff in Hx.
  assert (existsb (String.eqb x) l = true) as Hex; [|congruence].
  apply existsb_exists. exists x. split; [exact Hin|apply String.eqb_refl].
Qed.

Lemma listing_urls_distinct : NoDup (map listing_url offsets).
Proof. apply distinctb_NoDup. vm_compute. reflexivity. Qed.

(** C5.  The listing-page URLs are generated one per offset 0, 20, ...,
    760: 39 = ceil(765/20) of them, strictly ascending, without
    duplicates, none at or above 765, each the base template with its
    replacement field filled by the decimal string of the offset. *)
Theorem listing_urls_sequence (w : world) :
  drain listing_urls w = (Ok (map (fun n => VStr (listing_url n)) offsets), w) /\
  base = listing_prefix ++ "{}" /\
  (forall n, PyStr.format base [PyStr.of_int n] = Ok (listing_prefix ++ PyStr.of_int n)) /\
  (forall n, In n offsets <-> (0 <= n < 765 /\ n mod 20 = 0)%Z) /\
  length offsets = 39 /\
  (Z.of_nat (length offsets) = (total_jobs + pg_interval - 1) / pg_interval)%Z /\
  StronglySorted Z.lt offsets /\
  NoDup offsets /\
  NoDup (map listing_url offsets).
Proof.
  split; [unfold listing_urls; rewrite py_range_offsets; apply drain_genexpr_page_url|].
  split; [reflexivity|].
  split; [intros n; exact (PyStrFacts.format_one_field listing_prefix (PyStr.of_int n) eq_refl)|].
  split; [exact offsets_spec|].
  split; [reflexivity|].
  split; [reflexivity|].
  split; [exact offsets_ascending|].
  split; [exact (strictly_ascending_NoDup _ offsets_ascending)|].
  exact listing_urls_distinct.
Qed.

(** ** One page's generator, once it is iterated *)

Lemma extend_nothing (w : world) : extend w [] [] 0 = w.
Proof. destruct w; unfold extend; simpl. now rewrite !app_nil_r. Qed.

Lemma for_each_resume (g : gen) (body : value -> M unit) (w : world) :
  for_each g body w =
  match resume g w with
  | Yield x g' w1 =>
      match body x w1 with
      | (Ok _, w2) => for_each g' body w2
      | (Raise e, w2) => (Raise e, w2)
      end
  | Stop w1 => (Ok tt, w1)
  | Throw e w1 => (Raise e, w1)
  end.
Proof. destruct g; reflexivity. Qed.

Lemma posting_url_ok (p : heading) (u : string) (w : world) :
  normalizes_to p u -> posting_url p w = (Ok (VStr u), w).
Proof.
  intros (h & Hh & Hu). unfold posting_url, bind, lift, ret.
  now rewrite Hh, Hu.
Qed.

Lemma posting_url_raises (p : heading) (e : exn) (w : world) :
  posting_href p = Raise e -> posting_url p w = (Raise e, w).
Proof.
  intros He. unfold posting_url, bind, lift. now rewrite He.
Qed.

(** Iterating the postings of a page prints the normalized URL of each
    well-formed heading in page order; at the first heading without an
    anchor or without a reference the iteration raises. *)
Lemma print_postings (hs : list heading) (us : list string)
      (rest : option (heading * exn * list heading)) (w : world) :
  Forall2 normalizes_to hs us ->
  match rest with
  | Some (p, e, _) => posting_href p = Raise e
  | None => True
  end ->
  for_each (yield_from (genexpr_list posting_url
                          (hs ++ match rest with
                                 | Some (p, _, tl) => p :: tl
                                 | None => []
                                 end)) exhausted) print w
  = (match rest with Some (_, e, _) => Raise e | None => Ok tt end,
     extend w us [] 0).
Proof.
  intros Hall Hrest. revert w.
  induction Hall as [|p u hs us Hp _ IH]; intros w.
  - destruct rest as [[[p e] tl]|]; cbn [app genexpr_list yield_from for_each resume exhausted].
    + now rewrite (posting_url_raises p e w Hrest), extend_nothing.
    + now rewrite extend_nothing.
  - cbn [app genexpr_list yield_from for_each].
    rewrite (posting_url_ok p u w Hp). cbn [print].
    rewrite IH. f_equal. unfold extend; simpl.
    now rewrite <- !app_assoc, !app_nil_r.
Qed.

Section Page.
Variable E : env.
Variables (url : string) (r : response) (w : world).
Hypothesis Hget : http_get E url = Ok r.

(** A page answered with a status other than 200 makes its generator raise
    the assertion failure with the status and the body, before anything
    is yielded. *)
Lemma extract_posting_urls_asserts :
  status_code r <> 200%Z ->
  for_each (extract_posting_urls_body E (VStr url)) print w
  = (Raise (AssertionError (status_code r) (text r)), extend w [] [url] 0).
Proof.
  intros Hstatus. apply Z.eqb_neq in Hstatus.
  unfold extract_posting_urls_body, bind, lift, requests_get.
  cbn [for_each as_str]. rewrite Hget, Hstatus.
  unfold extend; simpl. now rewrite app_nil_r.
Qed.

(** A page answered with status 200 and well-formed headings makes its
    generator yield the normalized URLs in page order, after one request. *)
Lemma extract_posting_urls_prints (us : list string) :
  status_code r = 200%Z ->
  Forall2 normalizes_to (find_all_h3_s18 E (text r)) us ->
  for_each (extract_posting_urls_body E (VStr url)) print w
  = (Ok tt, extend w us [url] 1).
Proof.
  intros Hstatus Hall. apply Z.eqb_eq in Hstatus.
  unfold extract_posting_urls_body, bind, lift, requests_get, new_generator.
  cbn [for_each as_str]. rewrite Hget, Hstatus.
  cbn [py_iter stdout requests generators].
  rewrite <- for_each_resume.
  pose proof (print_postings _ us None
                (mkWorld (stdout w) (requests w ++ [url]) (S (generators w)))
                Hall I) as H.
  rewrite app_nil_r in H. rewrite H.
  unfold extend; simpl. now rewrite app_nil_r.
Qed.

(** A matched heading without an anchor, or whose anchor has no reference,
    makes the page's generator raise at that heading, after the headings
    before it. *)
Lemma extract_posting_urls_malformed
      (hs tl : list heading) (us : list string) (p : heading) (e : exn) :
  status_code r = 200%Z ->
  find_all_h3_s18 E (text r) = (hs ++ p :: tl)%list ->
  Forall2 normalizes_to hs us ->
  posting_href p = Raise e ->
  for_each (extract_posting_urls_body E (VStr url)) print w
  = (Raise e, extend w us [url] 1).
Proof.
  intros Hstatus Hfind Hall Hp. apply Z.eqb_eq in Hstatus.
  unfold extract_posting_urls_body, bind, lift, requests_get, new_generator.
  cbn [for_each as_str]. rewrite Hget, Hstatus, Hfind.
  cbn [py_iter stdout requests generators].
  rewrite <- for_each_resume.
  rewrite (print_postings hs us (Some (p, e, tl))
             (mkWorld (stdout w) (requests w ++ [url]) (S (generators w)))
             Hall Hp).
  unfold extend; simpl. now rewrite app_nil_r.
Qed.

End Page.

(** ** The whole run *)

(** Whatever the server answers and whatever the pages hold, the run
    prints the string forms of the 39 page generators, issues no request
    and ends normally. *)
Lemma main_eq (E : env) :
  main E = mkRun (map py_str (page_generators E)) [] 0 None.
Proof. vm_compute. reflexivity. Qed.

Lemma page_generator_lines (E : env) :
  map py_str (page_generators E)
  = map (fun i => generator_line (address E (2 + i))) (seq 0 39).
Proof. unfold page_generators. rewrite map_map. reflexivity. Qed.

(** C2.  [itertools.chain] receives the generator of generators as its
    single argument, so the loop prints the 39 page generator objects
    themselves: 39 lines, each the string form of an unstarted generator of
    [extract_posting_urls]; no request is issued, the answers of the server
    and the content of the pages play no part, and the run ends normally. *)
Theorem collect_postings_prints_generator_objects (E : env) :
  printed (main E) = map py_str (page_generators E) /\
  printed (main E) = map (fun i => generator_line (address E (2 + i))) (seq 0 39) /\
  length (printed (main E)) = 39 /\
  fetched (main E) = [] /\
  (forall get find, main (mkEnv get find (address E)) = main E) /\
  uncaught (main E) = None /\
  exit_status (main E) = 0%Z.
Proof.
  rewrite main_eq. cbn [printed fetched uncaught exit_status].
  split; [reflexivity|].
  split; [apply page_generator_lines|].
  split; [reflexivity|].
  split; [reflexivity|].
  split; [|split; reflexivity].
  intros get find. rewrite main_eq. reflexivity.
Qed.

(** C8.  The run issues no HTTP GET at all, for any server: the list of
    requests is empty, not the 39 listing-page URLs in ascending order. *)
Theorem no_page_is_fetched (E : env) :
  fetched (main E) = [] /\
  fetched (main E) <> map listing_url offsets.
Proof.
  rewrite main_eq. cbn [fetched]. split; [reflexivity|discriminate].
Qed.

(** C1.  With a server whose first page lists two postings and whose other
    pages list none, the per-page lists concatenate to the two normalized
    URLs, but the run prints 39 other lines. *)
Theorem page_lists_are_not_flattened :
  concat (map (page_lines env_two) (map listing_url offsets)) = ["job/abc"; "job/def"] /\
  length (printed (main env_two)) = 39 /\
  printed (main env_two) <> concat (map (page_lines env_two) (map listing_url offsets)).
Proof.
  assert (concat (map (page_lines env_two) (map listing_url offsets))
          = ["job/abc"; "job/def"]) as Hconcat by (vm_compute; reflexivity).
  rewrite Hconcat, main_eq. cbn [printed].
  split; [reflexivity|]. split; [reflexivity|discriminate].
Qed.

(** C3.  In the end-to-end scenario (offset 0 answers two headings with
    the references './job/abc?ref=1' and './job/def', the offsets 20 to
    760 answer empty listings) the run ends with status 0 but prints the
    39 generator lines, not the two lines 'job/abc' and 'job/def'. *)
Theorem end_to_end_scenario_output :
  (exists r, http_get env_two (listing_url 0) = Ok r /\ status_code r = 200%Z /\
             find_all_h3_s18 env_two (text r) = two_postings) /\
  Forall (fun n => exists r, http_get env_two (listing_url n) = Ok r /\
                             status_code r = 200%Z /\
                             find_all_h3_s18 env_two (text r) = [])
         (tl offsets) /\
  printed (main env_two) = map (fun i => generator_line (example_address (2 + i))) (seq 0 39) /\
  printed (main env_two) <> ["job/abc"; "job/def"] /\
  exit_status (main env_two) = 0%Z.
Proof.
  split; [eexists; repeat split; reflexivity|].
  split.
  - unfold offsets; simpl tl.
    repeat (constructor; [eexists; repeat split; reflexivity|]). constructor.
  - rewrite main_eq. cbn [printed exit_status].
    split; [apply page_generator_lines|]. split; [discriminate|reflexivity].
Qed.

(** C4.  With a server that answers 404 for every page the run issues no
    request, raises nothing and ends with status 0 after printing 39
    lines, although the generator of the first page, were it iterated,
    would raise the assertion failure carrying 404 and the body. *)
Theorem status_404_does_not_abort :
  for_each (extract_posting_urls_body env_404 (VStr (listing_url 0))) print initial_world
  = (Raise (AssertionError 404 "Not Found"), mkWorld [] [listing_url 0] 0) /\
  uncaught (main env_404) = None /\
  exit_status (main env_404) = 0%Z /\
  fetched (main env_404) = [] /\
  length (printed (main env_404)) = 39.
Proof.
  split; [vm_compute; reflexivity|].
  rewrite main_eq. repeat split; reflexivity.
Qed.

(** C7.  With pages whose matched heading has no anchor, or whose anchor
    has no reference, the run raises nothing and ends with status 0,
    although the generator of such a page, were it iterated, would raise
    the lookup failure. *)
Theorem malformed_heading_does_not_abort :
  fst (for_each (extract_posting_urls_body env_no_anchor (VStr (listing_url 0)))
         print initial_world)
  = Raise (TypeError "'NoneType' object is not subscriptable") /\
  fst (for_each (extract_posting_urls_body env_no_href (VStr (listing_url 0)))
         print initial_world)
  = Raise (KeyError "href") /\
  uncaught (main env_no_anchor) = None /\
  exit_status (main env_no_anchor) = 0%Z /\
  uncaught (main env_no_href) = None /\
  exit_status (main env_no_href) = 0%Z.
Proof.
  split; [vm_compute; reflexivity|].
  split; [vm_compute; reflexivity|].
  rewrite !main_eq. repeat split; reflexivity.
Qed.

(** ** The [Posting] class *)

(** [__init__] raises for every argument list: with three arguments
    after the instance the arity check fails, as it does for any count but
    three; with exactly three arguments in all the first statement reads
    the unbound name [self]. *)
Lemma init_raises (args : list Posting.obj) : is_ok (Posting.init args) = false.
Proof.
  destruct args as [|x [|y [|z [|t args]]]]; reflexivity.
Qed.

Lemma init_two_arguments (x y : Posting.obj) :
  Posting.new [x; y] = Raise (NameError "self").
Proof. reflexivity. Qed.

Lemma format_row_raises (args : list Posting.obj) :
  is_ok (Posting.format_row args) = false.
Proof.
  destruct args as [|x args]; reflexivity.
Qed.

Lemma format_row_direct : Posting.format_row [] = Raise (NameError "self").
Proof. reflexivity. Qed.

(** C10.  Every call [Posting(title, url, description)] raises, because
    [__init__] declares three parameters and receives the instance as a
    fourth argument; a call with any other number of arguments raises as
    well, so no instance is ever returned; and [format_row] raises however
    it is called, on an instance or directly. *)
Theorem posting_cannot_be_instantiated :
  (forall title url description,
     Posting.new [title; url; description]
     = Raise (TypeError "__init__() takes 3 positional arguments but 4 were given")) /\
  (forall args, is_ok (Posting.new args) = false) /\
  (forall p args, is_ok (Posting.call_format_row_on p args) = false) /\
  (forall args, is_ok (Posting.format_row args) = false).
Proof.
  split; [reflexivity|]. split; [|split].
  - intros args. unfold Posting.new.
    pose proof (init_raises (Posting.Instance [] :: args)) as H.
    destruct (Posting.init (Posting.Instance [] :: args)); [discriminate H|reflexivity].
  - intros p args. apply format_row_raises.
  - exact format_row_raises.
Qed.

(** * Further properties *)

(** ** [unwrap_url] on references of a known shape *)

Lemma split_no_separator (sep : ascii) (s : string) :
  PyStr.mem sep s = false -> PyStr.split sep s = [s].
Proof.
  induction s as [|c s IH]; simpl; intros Hmem; [reflexivity|].
  apply orb_false_iff in Hmem as [Hc Hs].
  now rewrite Hc, (IH Hs).
Qed.

Lemma split_at_separator (sep : ascii) (field rest : string) :
  PyStr.mem sep field = false ->
  PyStr.split sep (field ++ String sep rest) = field :: PyStr.split sep rest.
Proof.
  induction field as [|c field IH]; simpl; intros Hmem.
  - now rewrite Ascii.eqb_refl.
  - apply orb_false_iff in Hmem as [Hc Hfield].
    now rewrite Hc, (IH Hfield).
Qed.

(** X1.  A reference made of any two characters, a path without question
    mark, a question mark and any query string normalizes to the path:
    the query is dropped whole, further question marks included. *)
Theorem unwrap_url_path_and_query (c1 c2 : ascii) (path query : string) :
  PyStr.mem "?" path = false ->
  unwrap_url (String c1 (String c2 (path ++ String "?" query))) = Ok path.
Proof.
  intros Hpath. unfold unwrap_url. cbn [PyStr.slice_from].
  now rewrite (split_at_separator "?" path query Hpath).
Qed.

Lemma unwrap_url_path_and_query_witness :
  PyStr.mem "?" "job/abc" = false /\
  unwrap_url (String "." (String "/" ("job/abc" ++ String "?" "ref=1?x"))) = Ok "job/abc".
Proof.
  split; [reflexivity|].
  apply (unwrap_url_path_and_query "." "/" "job/abc" "ref=1?x"). reflexivity.
Defined.

(** X2.  A reference with no question mark after its first two characters
    normalizes to the reference without those two characters, unchanged
    otherwise. *)
Theorem unwrap_url_without_query (href : string) :
  PyStr.mem "?" (PyStr.slice_from 2 href) = false ->
  unwrap_url href = Ok (PyStr.slice_from 2 href).
Proof.
  intros Hmem. unfold unwrap_url.
  now rewrite (split_no_separator "?" _ Hmem).
Qed.

Lemma unwrap_url_without_query_witness :
  PyStr.mem "?" (PyStr.slice_from 2 "./job/def") = false /\
  unwrap_url "./job/def" = Ok (PyStr.slice_from 2 "./job/def").
Proof.
  split; [reflexivity|].
  apply (unwrap_url_without_query "./job/def"). reflexivity.
Defined.

(** X3.  The first two characters are dropped without being looked at:
    the result is the same whatever they are, so a reference that does not
    start with './' loses its first two characters all the same, and a
    question mark among them is not seen. *)
Theorem unwrap_url_ignores_prefix (c1 c2 d1 d2 : ascii) (s : string) :
  unwrap_url (String c1 (String c2 s)) = unwrap_url (String d1 (String d2 s)) /\
  unwrap_url (String c1 (String c2 s)) = unwrap_url ("./" ++ s).
Proof. split; reflexivity. Qed.

(** ** The listing URL of an offset *)

Lemma to_int_not_nil (z : Z) :
  Z.to_int z <> Decimal.Pos Decimal.Nil /\ Z.to_int z <> Decimal.Neg Decimal.Nil.
Proof.
  destruct z as [|p|p]; simpl; split; try discriminate;
    intros H; injection H as H; now apply (Unsigned.to_uint_nonnil p).
Qed.

Lemma of_int_injective (n m : Z) : PyStr.of_int n = PyStr.of_int m -> n = m.
Proof.
  unfold PyStr.of_int. intros H.
  apply DecimalZ.to_int_inj.
  destruct (to_int_not_nil n) as [Hn1 Hn2], (to_int_not_nil m) as [Hm1 Hm2].
  pose proof (NilZero.isi _ Hn1 Hn2) as En.
  pose proof (NilZero.isi _ Hm1 Hm2) as Em.
  rewrite H in En. rewrite En in Em. now injection Em.
Qed.

(** X4.  Two different offsets, whatever integers they are, never give the
    same listing-page URL: the URL that [base.format] builds determines
    its offset. *)
Theorem page_url_injective (n m : Z) (w : world) :
  n <> m -> fst (page_url n w) <> fst (page_url m w).
Proof.
  intros Hnm. rewrite !page_url_eq. cbn [fst]. intros H.
  injection H as H. unfold listing_url in H.
  exact (Hnm (of_int_injective n m H)).
Qed.

Lemma page_url_injective_witness :
  0%Z <> 20%Z /\ fst (page_url 0 initial_world) <> fst (page_url 20 initial_world).
Proof.
  split; [discriminate|].
  apply (page_url_injective 0 20 initial_world). discriminate.
Defined.

(** ** One page's generator, whatever the server answers *)

Lemma print_postings_any (hs : list heading) (w : world) :
  exists o us,
    for_each (yield_from (genexpr_list posting_url hs) exhausted) print w
    = (o, extend w us [] 0) /\
    Forall (fun u => PyStr.mem "?" u = false) us /\
    length us <= length hs.
Proof.
  revert w. induction hs as [|p hs IH]; intros w.
  - exists (Ok tt), []. rewrite extend_nothing. repeat split; auto.
  - cbn [genexpr_list yield_from for_each].
    destruct (posting_href p) as [h|e] eqn:Hp.
    + destruct (unwrap_url_shape h) as (u & Hu & Hmem & _).
      rewrite (posting_url_ok p u w (ex_intro _ h (conj Hp Hu))). cbn [print].
      destruct (IH (mkWorld (stdout w ++ [py_str (VStr u)]) (requests w) (generators w)))
        as (o & us & Heq & Hall & Hlen).
      exists o, (u :: us). rewrite Heq. repeat split.
      * unfold extend; simpl. now rewrite <- !app_assoc.
      * now constructor.
      * simpl; lia.
    + rewrite (posting_url_raises p e w Hp).
      exists (Raise e), []. rewrite extend_nothing. repeat split; auto.
      simpl; lia.
Qed.

Lemma page_iteration_shape (E : env) (url : string) (w : world) :
  exists o us gens,
    for_each (extract_posting_urls_body E (VStr url)) print w
    = (o, extend w us [url] gens) /\
    Forall (fun u => PyStr.mem "?" u = false) us /\
    gens <= 1.
Proof.
  unfold extract_posting_urls_body, bind, lift, requests_get, new_generator.
  cbn [for_each as_str].
  destruct (http_get E url) as [r|e].
  - destruct (status_code r =? 200)%Z.
    + cbn [py_iter stdout requests generators]. rewrite <- for_each_resume.
      destruct (print_postings_any (find_all_h3_s18 E (text r))
                  (mkWorld (stdout w) (requests w ++ [url]) (S (generators w))))
        as (o & us & Heq & Hall & _).
      exists o, us, 1. rewrite Heq. repeat split; auto.
      unfold extend; simpl. now rewrite app_nil_r.
    + exists (Raise (AssertionError (status_code r) (text r))), [], 0.
      repeat split; auto. unfold extend; simpl. now rewrite app_nil_r.
  - exists (Raise e), [], 0.
    repeat split; auto. unfold extend; simpl. now rewrite app_nil_r.
Qed.

(** X5.  Iterating the generator of a page to its end issues exactly one
    GET request, for that page's URL, whatever happens: a transport
    failure, a status other than 200, a malformed heading or a complete
    page.  Nothing is retried and no other URL is requested. *)
Theorem page_iteration_one_request (E : env) (url : string) (w : world) :
  requests (snd (for_each (extract_posting_urls_body E (VStr url)) print w))
  = (requests w ++ [url])%list.
Proof.
  destruct (page_iteration_shape E url w) as (o & us & gens & Heq & _).
  now rewrite Heq.
Qed.

(** X6.  Iterating the generator of a page keeps what was printed before
    and adds only normalized URLs: no added line holds a question mark,
    whatever references the page carries. *)
Theorem page_iteration_output (E : env) (url : string) (w : world) :
  exists us,
    stdout (snd (for_each (extract_posting_urls_body E (VStr url)) print w))
    = (stdout w ++ us)%list /\
    Forall (fun u => PyStr.mem "?" u = false) us.
Proof.
  destruct (page_iteration_shape E url w) as (o & us & gens & Heq & Hall & _).
  exists us. now rewrite Heq.
Qed.

(** X7.  When the request itself fails, the failure leaves the page's
    generator as it is: nothing is caught, nothing is printed and the
    parser is not reached. *)
Theorem transport_failure_propagates
        (E : env) (url : string) (e : exn) (w : world) :
  http_get E url = Raise e ->
  for_each (extract_posting_urls_body E (VStr url)) print w
  = (Raise e, mkWorld (stdout w) (requests w ++ [url]) (generators w)).
Proof.
  intros Hget.
  unfold extract_posting_urls_body, bind, lift, requests_get.
  cbn [for_each as_str]. now rewrite Hget.
Qed.

Lemma transport_failure_propagates_witness :
  http_get env_down (listing_url 0) = Raise (ConnectionError "Connection refused") /\
  for_each (extract_posting_urls_body env_down (VStr (listing_url 0))) print initial_world
  = (Raise (ConnectionError "Connection refused"),
     mkWorld (stdout initial_world) (requests initial_world ++ [listing_url 0])
             (generators initial_world)).
Proof.
  split; [reflexivity|].
  apply (transport_failure_propagates env_down (listing_url 0)). reflexivity.
Defined.

(** X8.  A page answered with a status other than 200 makes its generator
    raise the assertion failure carrying that status and the body, after
    the one request and before anything is parsed or printed. *)
Theorem non_200_raises_assertion
        (E : env) (url : string) (r : response) (w : world) :
  http_get E url = Ok r ->
  status_code r <> 200%Z ->
  for_each (extract_posting_urls_body E (VStr url)) print w
  = (Raise (AssertionError (status_code r) (text r)), extend w [] [url] 0).
Proof. intros Hget Hstatus. now apply extract_posting_urls_asserts. Qed.

Lemma non_200_raises_assertion_witness :
  http_get env_404 (listing_url 0) = Ok (mkResponse 404 "Not Found") /\
  status_code (mkResponse 404 "Not Found") <> 200%Z /\
  for_each (extract_posting_urls_body env_404 (VStr (listing_url 0))) print initial_world
  = (Raise (AssertionError 404 "Not Found"), extend initial_world [] [listing_url 0] 0).
Proof.
  split; [reflexivity|]. split; [discriminate|].
  apply (non_200_raises_assertion env_404 (listing_url 0) (mkResponse 404 "Not Found"));
    [reflexivity|discriminate].
Defined.

(** X9.  A page answered with status 200 whose matched headings all have
    an anchor with a reference makes its generator yield the normalized
    references in the order of the headings, one per heading, after one
    request. *)
Theorem page_yields_normalized_urls
        (E : env) (url : string) (r : response) (w : world) (us : list string) :
  http_get E url = Ok r ->
  status_code r = 200%Z ->
  Forall2 normalizes_to (find_all_h3_s18 E (text r)) us ->
  for_each (extract_posting_urls_body E (VStr url)) print w
  = (Ok tt, extend w us [url] 1).
Proof. intros Hget Hstatus Hall. now apply (extract_posting_urls_prints E url r). Qed.

Lemma page_yields_normalized_urls_witness :
  http_get env_two (listing_url 0) = Ok (mkResponse 200 body_two_postings) /\
  status_code (mkResponse 200 body_two_postings) = 200%Z /\
  Forall2 normalizes_to
    (find_all_h3_s18 env_two (text (mkResponse 200 body_two_postings)))
    ["job/abc"; "job/def"] /\
  for_each (extract_posting_urls_body env_two (VStr (listing_url 0))) print initial_world
  = (Ok tt, extend initial_world ["job/abc"; "job/def"] [listing_url 0] 1).
Proof.
  assert (Forall2 normalizes_to
            (find_all_h3_s18 env_two (text (mkResponse 200 body_two_postings)))
            ["job/abc"; "job/def"]) as Hall.
  { repeat constructor; eexists; split; reflexivity. }
  split; [reflexivity|]. split; [reflexivity|]. split; [exact Hall|].
  apply (page_yields_normalized_urls env_two (listing_url 0)
           (mkResponse 200 body_two_postings)); [reflexivity|reflexivity|exact Hall].
Defined.

(** X10.  A matched heading without an anchor, or whose anchor has no
    reference, stops the page's generator at that heading: the URLs of
    the headings before it have been yielded already, the headings after
    it are never looked at. *)
Theorem malformed_heading_stops_page
        (E : env) (url : string) (r : response) (w : world)
        (hs tl : list heading) (us : list string) (p : heading) (e : exn) :
  http_get E url = Ok r ->
  status_code r = 200%Z ->
  find_all_h3_s18 E (text r) = (hs ++ p :: tl)%list ->
  Forall2 normalizes_to hs us ->
  posting_href p = Raise e ->
  for_each (extract_posting_urls_body E (VStr url)) print w
  = (Raise e, extend w us [url] 1).
Proof.
  intros Hget Hstatus Hfind Hall Hp.
  now apply (extract_posting_urls_malformed E url r w Hget hs tl us p e).
Qed.

Lemma malformed_heading_stops_page_witness :
  http_get env_closed_between (listing_url 0) = Ok (mkResponse 200 body_closed_between) /\
  for_each (extract_posting_urls_body env_closed_between (VStr (listing_url 0)))
    print initial_world
  = (Raise (TypeError "'NoneType' object is not subscriptable"),
     extend initial_world ["job/abc"] [listing_url 0] 1).
Proof.
  split; [reflexivity|].
  apply (malformed_heading_stops_page env_closed_between (listing_url 0)
           (mkResponse 200 body_closed_between) initial_world
           [mkHeading (Some (mkAnchor (Some "./job/abc?ref=1")))]
           [mkHeading (Some (mkAnchor (Some "./job/def")))]
           ["job/abc"] (mkHeading None)).
  - reflexivity.
  - reflexivity.
  - reflexivity.
  - repeat constructor. eexists; split; reflexivity.
  - reflexivity.
Defined.

(** ** Iteration: how [chain], generator expressions and loops compose *)

(** Induction over a generator: a property holds of every generator if it
    holds of a generator whenever it holds of every state the generator
    can move to by yielding. *)
Lemma gen_induction (P : gen -> Prop) :
  (forall next,
      (forall w, match next w with Yield _ g' _ => P g' | _ => True end) ->
      P (Gen next)) ->
  forall g, P g.
Proof.
  intros H. fix IH 1. intros [next]. apply H. intros w.
  destruct (next w) as [x g' w1|w1|e w1]; [apply IH|exact I|exact I].
Qed.

Lemma yield_from_exhausted (body : value -> M unit) (g : gen) :
  forall w, for_each (yield_from g exhausted) body w = for_each g body w.
Proof.
  induction g as [next IH] using gen_induction. intros w.
  cbn [yield_from for_each]. specialize (IH w).
  destruct (next w) as [x g' w1|w1|e w1]; try reflexivity.
  destruct (body x w1) as [[[]|e] w2]; [apply IH|reflexivity].
Qed.

Lemma for_each_chain_one
      (qualname : string) (addr : N) (g : gen)
      (body : value -> M unit) (w : world) :
  for_each (chain [VGenerator qualname addr g]) body w = for_each g body w.
Proof.
  rewrite for_each_resume. cbn [chain py_iter resume].
  rewrite <- for_each_resume. apply yield_from_exhausted.
Qed.

Lemma for_each_genexpr_fusion
      (f : value -> M value) (body : value -> M unit) (g : gen) :
  forall w,
    for_each (genexpr f g) body w
    = for_each g (fun x => y <- f x ;; body y) w.
Proof.
  induction g as [next IH] using gen_induction. intros w.
  cbn [genexpr for_each]. specialize (IH w).
  destruct (next w) as [x g' w1|w1|e w1]; try reflexivity.
  unfold bind at 1. unfold bind in IH.
  destruct (f x w1) as [[y|e] w2]; [|reflexivity].
  destruct (body y w2) as [[[]|e] w3]; [apply IH|reflexivity].
Qed.

(** X11.  [itertools.chain] called with a single generator yields exactly
    what that generator yields: a loop over the chain runs as the loop
    over the generator itself, whatever the generator yields (other
    generators included) and whatever the loop body does. *)
Theorem chain_of_one_generator
        (qualname : string) (addr : N) (g : gen)
        (body : value -> M unit) (w : world) :
  for_each (chain [VGenerator qualname addr g]) body w = for_each g body w.
Proof. apply for_each_chain_one. Qed.

(** X12.  A loop over a generator expression runs as the loop over its
    source with the element expression evaluated in front of the body: an
    element is produced only when the loop asks for it, and a failure of
    the element expression ends the loop with that failure. *)
Theorem loop_over_generator_expression
        (f : value -> M value) (body : value -> M unit) (g : gen) (w : world) :
  for_each (genexpr f g) body w
  = for_each g (fun x => y <- f x ;; body y) w.
Proof. apply for_each_genexpr_fusion. Qed.

(** ** [collect_postings] from any state *)

(** The loop that [collect_postings] amounts to, on any list of offsets:
    one generator object is created and printed per offset; nothing is
    requested and nothing raises. *)
Lemma print_page_generators (E : env) (l : list Z) :
  forall w,
    for_each (genexpr_list page_url l)
             (fun url => g <- extract_posting_urls E url ;; print g) w
    = (Ok tt,
       mkWorld (stdout w ++ map (fun i => generator_line (address E (generators w + i)))
                                (seq 0 (length l)))
               (requests w)
               (generators w + length l)).
Proof.
  induction l as [|n l IH]; intros w.
  - destruct w as [out reqs gens]. cbn. now rewrite app_nil_r, Nat.add_0_r.
  - cbn [genexpr_list for_each]. rewrite page_url_eq.
    unfold bind at 1, extract_posting_urls, new_generator. cbn [print].
    rewrite IH. cbn [stdout requests generators length].
    f_equal. f_equal; [|lia].
    rewrite <- app_assoc. f_equal. cbn [seq map app].
    rewrite Nat.add_0_r. f_equal.
    rewrite <- seq_shift, map_map.
    apply map_ext. intros i. now rewrite Nat.add_succ_comm.
Qed.

(** X13.  From any state, [collect_postings] runs as the plain loop that,
    for each listing-page URL in order, creates the generator object of
    that page and prints it: the chain and the outer generator expression
    add nothing to it. *)
Theorem collect_postings_as_loop (E : env) (w : world) :
  collect_postings E w
  = for_each listing_urls
             (fun url => g <- extract_posting_urls E url ;; print g)
             (mkWorld (stdout w) (requests w) (S (S (generators w)))).
Proof.
  unfold collect_postings, bind at 1, new_generator at 1.
  unfold bind at 1, lift. cbn [py_iter].
  unfold bind at 1, new_generator at 1.
  cbn [stdout requests generators].
  now rewrite for_each_chain_one, for_each_genexpr_fusion.
Qed.

(** X14.  From any state, [collect_postings] never raises and never issues
    a request: it adds 39 generator lines after what was printed before
    and creates 41 generator objects, so a second call prints 39 further
    lines. *)
Theorem collect_postings_from_any_state (E : env) (w : world) :
  collect_postings E w
  = (Ok tt,
     mkWorld (stdout w ++ map (fun i => generator_line (address E (generators w + 2 + i)))
                              (seq 0 39))
             (requests w)
             (generators w + 41)).
Proof.
  unfold collect_postings, bind at 1, new_generator at 1.
  unfold bind at 1, lift. cbn [py_iter].
  unfold bind at 1, new_generator at 1.
  cbn [stdout requests generators].
  rewrite for_each_chain_one, for_each_genexpr_fusion.
  unfold listing_urls. rewrite print_page_generators.
  cbn [stdout requests generators]. rewrite py_range_offsets.
  f_equal. f_equal.
  - f_equal. change (length offsets) with 39.
    apply map_ext. intros i. do 2 f_equal. lia.
  - change (length offsets) with 39. lia.
Qed.

(** ** The [Posting] class: which error for which call *)


(** ** [range] with other bounds *)

Lemma range_len_bound (start stop step : Z) (i : nat) :
  (0 < step)%Z ->
  i < range_len start stop step <-> (start + Z.of_nat i * step < stop)%Z.
Proof.
  intros Hstep. unfold range_len.
  destruct (start <? stop)%Z eqn:Hlt.
  - apply Z.ltb_lt in Hlt.
    assert (0 <= (stop - start - 1) / step)%Z as Hq
        by (apply Z.div_pos; lia).
    split; intros H.
    + assert (Z.of_nat i <= (stop - start - 1) / step)%Z as Hi by lia.
      pose proof (Z.mul_div_le (stop - start - 1) step Hstep) as Hmul.
      nia.
    + assert (Z.of_nat i <= (stop - start - 1) / step)%Z as Hi.
      { apply Z.div_le_lower_bound; [exact Hstep|]. nia. }
      lia.
  - apply Z.ltb_ge in Hlt. split; intros H; [lia|]. nia.
Qed.

(** X16.  For any bounds and any positive step, the offsets that [range]
    produces are exactly the numbers from the start up to, but not
    including, the stop that lie a whole number of steps after the start;
    in particular no page at or beyond the total is ever generated, and
    an empty or reversed interval gives no page at all. *)
Theorem py_range_values (start stop step n : Z) :
  (0 < step)%Z ->
  In n (py_range start stop step) <->
  (start <= n < stop /\ (n - start) mod step = 0)%Z.
Proof.
  intros Hstep. unfold py_range. rewrite in_map_iff. split.
  - intros (i & <- & Hi). apply in_seq in Hi.
    assert (i < range_len start stop step) as Hlen by lia.
    apply (range_len_bound start stop step i Hstep) in Hlen.
    split; [nia|].
    replace (start + Z.of_nat i * step - start)%Z with (Z.of_nat i * step)%Z by lia.
    apply Z.mod_mul. lia.
  - intros [Hrange Hmod].
    apply Z.mod_divide in Hmod; [|lia]. destruct Hmod as [c Hc].
    assert (0 <= c)%Z as Hc0 by nia.
    exists (Z.to_nat c). split; [lia|].
    apply in_seq. split; [lia|]. simpl.
    apply (range_len_bound start stop step (Z.to_nat c) Hstep). lia.
Qed.

Lemma py_range_values_witness :
  (0 < 20)%Z /\
  (In 760%Z (py_range 0 765 20) <->
   (0 <= 760 < 765 /\ (760 - 0) mod 20 = 0)%Z).
Proof.
  split; [lia|].
  apply (py_range_values 0 765 20 760). lia.
Defined.
